(** * mcp_mlb_statsapi: the tool layer of [server.py]

    A shallow embedding of [src/mcp_mlb_statsapi/server.py].  Every tool of
    the module is a thin layer over two external libraries ([statsapi] and
    [pybaseball]), the wall clock and standard output.  The embedding keeps
    those collaborators external: a tool is a finite tree of requests
    ([prog]), and a run of a tool against an arbitrary, possibly stateful
    environment ([handler]) yields its result, the ordered list of
    requests made together with the answers received, and the final
    state of the environment. *)

From Stdlib Require Import ZArith.
From stdpp Require Import gmap strings list fin_maps.

Local Open Scope string_scope.

(** ** Python values *)

(** The scalar values the module reads out of provider dictionaries and
    receives as tool arguments: [None], booleans, integers and strings. *)
Inductive pyval : Type :=
| VNone
| VBool (b : bool)
| VInt (n : Z)
| VStr (s : string).

(** [v is None] *)
Definition is_None (v : pyval) : bool :=
  match v with VNone => true | _ => false end.

(** [a == b].  [bool] is a subclass of [int] ([True == 1]); values of
    unrelated types are unequal. *)
Definition py_eq (a b : pyval) : bool :=
  match a, b with
  | VNone, VNone => true
  | VBool x, VBool y => Z.eqb (Z.b2z x) (Z.b2z y)
  | VBool x, VInt n => Z.eqb (Z.b2z x) n
  | VInt m, VBool y => Z.eqb m (Z.b2z y)
  | VInt m, VInt n => Z.eqb m n
  | VStr s, VStr t => String.eqb s t
  | _, _ => false
  end.

(** A provider record (team, game) and a daily summary are Python
    dictionaries with string keys. *)
Abbreviation dict := (gmap string pyval).

(** [bool(d)] for a dictionary: true exactly when it has an entry. *)
Definition dict_truthy (d : dict) : bool := negb (Nat.eqb (size d) 0).

(** ** Exceptions *)

Inductive exn_class : Type :=
| IndexError
| KeyError
| OtherException (name : string)
| NotAnException (name : string).

(** An exception object: its class and [str(e)].  [NotAnException]
    stands for the classes that derive from [BaseException] but not from
    [Exception] ([KeyboardInterrupt], [SystemExit], ...). *)
Record exn : Type := Exn { exn_cls : exn_class; exn_str : string }.

(** [isinstance(e, Exception)] *)
Definition is_Exception (e : exn) : bool :=
  match exn_cls e with
  | NotAnException _ => false
  | _ => true
  end.

Definition index_error : exn := Exn IndexError "list index out of range".
Definition key_error (k : string) : exn := Exn KeyError ("'" ++ k ++ "'").

(** The outcome of evaluating an expression: a value, or a raised
    exception. *)
Inductive outcome (A : Type) : Type :=
| Ok (a : A)
| Raised (e : exn).
Arguments Ok {A} a.
Arguments Raised {A} e.

Definition outcome_bind {A B} (f : A → outcome B) (r : outcome A) : outcome B :=
  match r with
  | Ok a => f a
  | Raised e => Raised e
  end.

#[global] Instance outcome_ret : MRet outcome := λ A a, Ok a.
#[global] Instance outcome_mbind : MBind outcome := λ A B f r, outcome_bind f r.
#[global] Instance outcome_fmap : FMap outcome :=
  λ A B f r, match r with Ok a => Ok (f a) | Raised e => Raised e end.

(** [d[k]] on a dictionary: [KeyError] when the key is missing. *)
Definition getitem (d : dict) (k : string) : outcome pyval :=
  match d !! k with
  | Some v => Ok v
  | None => Raised (key_error k)
  end.

(** [d.get(k, default)] *)
Definition dict_get (d : dict) (k : string) (dflt : pyval) : pyval :=
  default dflt (d !! k).

(** [l[i]] on a list, for [i >= 0]: [IndexError] when out of range. *)
Definition list_getitem {A} (l : list A) (i : nat) : outcome A :=
  match l !! i with
  | Some x => Ok x
  | None => Raised index_error
  end.

(** ** The game matcher: a pure scan *)

(** [find_games_by_team_id(games_data, team_id)].  [or] is
    short-circuit: ['away_id'] is read only when ['home_id'] differs. *)
Fixpoint find_games_by_team_id (games_data : list dict) (team_id : pyval)
  : outcome (option dict) :=
  match games_data with
  | [] => Ok None
  | game :: rest =>
      home ← getitem game "home_id";
      if py_eq home team_id then Ok (Some game)
      else
        away ← getitem game "away_id";
        if py_eq away team_id then Ok (Some game)
        else find_games_by_team_id rest team_id
  end.

(** The dictionary display built for a "Final" game in
    [get_daily_results]; the values are evaluated in source order. *)
Definition daily_summary (game : dict) : outcome dict :=
  date ← getitem game "game_date";
  home_team ← getitem game "home_name";
  home_score ← getitem game "home_score";
  away_team ← getitem game "away_name";
  away_score ← getitem game "away_score";
  winning_team ← getitem game "winning_team";
  losing_team ← getitem game "losing_team";
  let mvp := dict_get game "winning_pitcher" (VStr "N/A") in
  Ok (<["date" := date]>
      (<["home_team" := home_team]>
      (<["home_score" := home_score]>
      (<["away_team" := away_team]>
      (<["away_score" := away_score]>
      (<["winning_team" := winning_team]>
      (<["losing_team" := losing_team]>
      (<["MVP" := mvp]> (∅ : dict))))))))).

(** The loop of [get_daily_results]: [results] is the list accumulated
    so far, extended by [results.append(result)]. *)
Fixpoint daily_results_loop (schedule : list dict) (results : list dict)
  : outcome (list dict) :=
  match schedule with
  | [] => Ok results
  | game :: rest =>
      status ← getitem game "status";
      if py_eq status (VStr "Final") then
        result ← daily_summary game;
        daily_results_loop rest (results ++ [result])%list
      else daily_results_loop rest results
  end.

(** ** Requests to the outside world *)

(** What [print] writes: the list of teams in [look_up_team], a
    formatted message in the error handlers. *)
Inductive output : Type :=
| OutTeams (teams : list dict)
| OutLine (s : string).

(** The result dictionary of [mlb_team_result]: its two values are
    whatever the provider returned. *)
Record game_result (Payload : Type) : Type := GameResult {
  scoring_plays : Payload;
  game_highlights : Payload
}.
Arguments GameResult {Payload} _ _.
Arguments scoring_plays {Payload} _.
Arguments game_highlights {Payload} _.

(** The calls the module makes, indexed by the type of their answer.
    [Payload] is the type of the provider results the module forwards
    without inspecting them.  A keyword argument that a call site leaves
    out is an absent [option]; [playerid_lookup] takes its positional
    arguments as a list. *)
Inductive event (Payload : Type) : Type → Type :=
| statsapi_lookup_team (lookup_value : pyval) (activeStatus : string)
    : event Payload (outcome (list dict))
| statsapi_schedule (team : option pyval) (start_date end_date : pyval)
    : event Payload (outcome (list dict))
| statsapi_game_scoring_plays (gamePk : pyval) : event Payload (outcome Payload)
| statsapi_game_highlights (gamePk : pyval) : event Payload (outcome Payload)
| statsapi_lookup_player (lookup_value : pyval) : event Payload (outcome Payload)
| statsapi_game_pace (season : pyval) : event Payload (outcome Payload)
| playerid_lookup (positional : list pyval) (fuzzy : bool)
    : event Payload (outcome Payload)
| datetime_today_strftime : event Payload string
| print (out : output) : event Payload unit.
Arguments statsapi_lookup_team {Payload} _ _.
Arguments statsapi_schedule {Payload} _ _ _.
Arguments statsapi_game_scoring_plays {Payload} _.
Arguments statsapi_game_highlights {Payload} _.
Arguments statsapi_lookup_player {Payload} _.
Arguments statsapi_game_pace {Payload} _.
Arguments playerid_lookup {Payload} _ _.
Arguments datetime_today_strftime {Payload}.
Arguments print {Payload} _.

(** A tool body: it returns, raises, or makes a call and continues with
    the answer. *)
Inductive prog (Payload A : Type) : Type :=
| Ret (a : A)
| Raise (e : exn)
| Vis {X : Type} (ev : event Payload X) (k : X → prog Payload A).
Arguments Ret {Payload A} a.
Arguments Raise {Payload A} e.
Arguments Vis {Payload A X} ev k.

(** One observed call with the answer it received. *)
Inductive obs (Payload : Type) : Type :=
| Obs {X : Type} (ev : event Payload X) (answer : X).
Arguments Obs {Payload X} ev answer.

(** An environment: it answers every call from its current state. *)
Definition handler (Payload W : Type) : Type :=
  ∀ X : Type, event Payload X → W → X * W.

(** A finished run. *)
Record execution (Payload W A : Type) : Type := Exec {
  result : outcome A;
  trace : list (obs Payload);
  world : W
}.
Arguments Exec {Payload W A} _ _ _.
Arguments result {Payload W A} _.
Arguments trace {Payload W A} _.
Arguments world {Payload W A} _.

Section Tools.
Context {Payload : Type}.

Fixpoint prog_bind {A B} (f : A → prog Payload B) (p : prog Payload A)
  : prog Payload B :=
  match p with
  | Ret a => f a
  | Raise e => Raise e
  | Vis ev k => Vis ev (λ x, prog_bind f (k x))
  end.

#[global] Instance prog_ret : MRet (prog Payload) := λ A a, Ret a.
#[global] Instance prog_mbind : MBind (prog Payload) :=
  λ A B f p, prog_bind f p.

(** A pure, possibly raising computation inside a tool body. *)
Definition lift {A} (r : outcome A) : prog Payload A :=
  match r with
  | Ok a => Ret a
  | Raised e => Raise e
  end.

(** A call that cannot raise. *)
Definition ask {X} (ev : event Payload X) : prog Payload X :=
  Vis ev Ret.

(** A call to a library function: what it raises is raised here. *)
Definition perform {X} (ev : event Payload (outcome X)) : prog Payload X :=
  Vis ev lift.

(** [try: body / except Exception as e: on_error e].  Only instances
    of [Exception] are caught. *)
Fixpoint try_except_Exception {A} (body : prog Payload A)
    (on_error : exn → prog Payload A) : prog Payload A :=
  match body with
  | Ret a => Ret a
  | Raise e => if is_Exception e then on_error e else Raise e
  | Vis ev k => Vis ev (λ x, try_except_Exception (k x) on_error)
  end.

(** Running a tool body in an environment. *)
Fixpoint run {W A} (h : handler Payload W) (p : prog Payload A) (w : W)
  : execution Payload W A :=
  match p with
  | Ret a => Exec (Ok a) [] w
  | Raise e => Exec (Raised e) [] w
  | Vis ev k =>
      let '(x, w1) := h _ ev w in
      let ex := run h (k x) w1 in
      Exec (result ex) (Obs ev x :: trace ex) (world ex)
  end.

(** The run [ex] seen as the continuation of a run that had already
    made the calls [tr]. *)
Definition prepend {W A} (tr : list (obs Payload)) (ex : execution Payload W A)
  : execution Payload W A :=
  Exec (result ex) (tr ++ trace ex)%list (world ex).

(** [datetime.today().strftime('%Y-%m-%d')] *)
Definition today : prog Payload pyval :=
  d ← ask datetime_today_strftime; mret (VStr d).

(** *** The tools *)

Definition look_up_team (team_name : pyval) : prog Payload dict :=
  teams ← perform (statsapi_lookup_team team_name "Y");
  _ ← ask (print (OutTeams teams));
  lift (list_getitem teams 0).

Definition get_daily_results (date : pyval) : prog Payload (list dict) :=
  date ← (if is_None date then today else mret date);
  schedule ← perform (statsapi_schedule None date date);
  lift (daily_results_loop schedule []).

Definition get_mlb_schedule (start_date end_date team_id : pyval)
  : prog Payload (list dict) :=
  start_date ← (if is_None start_date then today else mret start_date);
  end_date ← (if is_None end_date then today else mret end_date);
  if negb (is_None team_id) then
    perform (statsapi_schedule (Some team_id) start_date end_date)
  else
    perform (statsapi_schedule None start_date end_date).

Definition mlb_team_result (team_name date : pyval)
  : prog Payload (option (game_result Payload)) :=
  teamInfo ← look_up_team team_name;
  team_id ← lift (getitem teamInfo "id");
  games ← get_mlb_schedule date date team_id;
  team_id' ← lift (getitem teamInfo "id");
  game ← lift (find_games_by_team_id games team_id');
  match game with
  | Some game =>
      if dict_truthy game then
        gamePk ← lift (getitem game "game_id");
        plays ← perform (statsapi_game_scoring_plays gamePk);
        highlights ← perform (statsapi_game_highlights gamePk);
        mret (Some (GameResult plays highlights))
      else mret None
  | None => mret None
  end.

Definition player_id_lookup (last_name first_name : pyval) (fuzzy : bool)
  : prog Payload (option Payload) :=
  if negb (is_None last_name) && negb (is_None first_name) then
    data ← perform (playerid_lookup [last_name; first_name] false);
    mret (Some data)
  else if negb (is_None last_name) && is_None first_name then
    data ← perform (playerid_lookup [last_name] true);
    mret (Some data)
  else if is_None last_name && negb (is_None first_name) then
    data ← perform (playerid_lookup [first_name] true);
    mret (Some data)
  else mret None.

Definition get_player_info (lookup_value : pyval)
  : prog Payload (option Payload) :=
  try_except_Exception
    (player_info ← perform (statsapi_lookup_player lookup_value);
     mret (Some player_info))
    (λ e,
      _ ← ask (print (OutLine ("Error retrieving player information: "
                                ++ exn_str e)));
      mret None).

Definition get_game_highlights (game_id : pyval)
  : prog Payload (option Payload) :=
  try_except_Exception
    (highlights ← perform (statsapi_game_highlights game_id);
     mret (Some highlights))
    (λ e,
      _ ← ask (print (OutLine ("Error retrieving game highlights: "
                                ++ exn_str e)));
      mret None).

Definition game_pace (season : pyval) : prog Payload (option Payload) :=
  try_except_Exception
    (pace ← perform (statsapi_game_pace season);
     mret (Some pace))
    (λ e,
      _ ← ask (print (OutLine ("Error calling statsapi.game_pace: "
                                ++ exn_str e)));
      mret None).

End Tools.

(** ** Vocabulary of the specification *)

(** A provider game record carries both team identifiers. *)
Definition is_game (game : dict) : Prop :=
  is_Some (game !! "home_id") ∧ is_Some (game !! "away_id").

(** [game[k] == v], false when the key is missing. *)
Definition field_eq (game : dict) (k : string) (v : pyval) : bool :=
  match game !! k with
  | Some x => py_eq x v
  | None => false
  end.

(** The team plays in the game, at home or away. *)
Definition plays_in (team_id : pyval) (game : dict) : bool :=
  field_eq game "home_id" team_id || field_eq game "away_id" team_id.

(** The game's status equals "Final". *)
Definition is_Final (game : dict) : bool :=
  field_eq game "status" (VStr "Final").

(** A schedule entry as [get_daily_results] reads it: a status, and for
    a finished game the seven fields that are copied. *)
Definition is_scheduled_game (game : dict) : Prop :=
  is_Some (game !! "status") ∧
  (is_Final game = true →
   Forall (λ k, is_Some (game !! k))
     ["game_date"; "home_name"; "home_score"; "away_name"; "away_score";
      "winning_team"; "losing_team"]).

(** [summary] is the DailySummary of [game]: the fixed field mapping,
    with "MVP" taken from "winning_pitcher" or else "N/A". *)
Definition summarises (game summary : dict) : Prop :=
  summary !! "date" = game !! "game_date" ∧
  summary !! "home_team" = game !! "home_name" ∧
  summary !! "home_score" = game !! "home_score" ∧
  summary !! "away_team" = game !! "away_name" ∧
  summary !! "away_score" = game !! "away_score" ∧
  summary !! "winning_team" = game !! "winning_team" ∧
  summary !! "losing_team" = game !! "losing_team" ∧
  summary !! "MVP" = Some (match game !! "winning_pitcher" with
                           | Some pitcher => pitcher
                           | None => VStr "N/A"
                           end).

(** A date argument after defaulting, with the clock readings it cost:
    an absent date becomes the reading taken for it, a given date is
    kept and the clock is not read. *)
Inductive defaulted : pyval → pyval → list string → Prop :=
| defaulted_today (now : string) : defaulted VNone (VStr now) [now]
| defaulted_given (date : pyval) : date ≠ VNone → defaulted date date [].

(** The team filter of a schedule query: present exactly when a team id
    was supplied. *)
Definition team_filter (team_id : pyval) : option pyval :=
  match team_id with
  | VNone => None
  | _ => Some team_id
  end.

Section Traces.
Context {Payload : Type}.

(** The answers the schedule provider gave during a run, in order. *)
Definition schedule_answer (o : obs Payload) : option (outcome (list dict)) :=
  match o with
  | Obs ev answer =>
      match ev in event _ X return X → option (outcome (list dict)) with
      | statsapi_schedule _ _ _ => λ r, Some r
      | _ => λ _, None
      end answer
  end.

Definition schedule_answers (tr : list (obs Payload))
  : list (outcome (list dict)) :=
  omap schedule_answer tr.

Definition is_schedule_query (o : obs Payload) : bool :=
  match o with
  | Obs (statsapi_schedule _ _ _) _ => true
  | Obs _ _ => false
  end.

(** The two provider operations of the result aggregator. *)
Definition is_aggregator_call (o : obs Payload) : bool :=
  match o with
  | Obs (statsapi_game_scoring_plays _) _ => true
  | Obs (statsapi_game_highlights _) _ => true
  | Obs _ _ => false
  end.

(** Any call to [statsapi] or [pybaseball], as opposed to the clock
    and standard output. *)
Definition is_provider_call (o : obs Payload) : bool :=
  match o with
  | Obs datetime_today_strftime _ => false
  | Obs (print _) _ => false
  | Obs _ _ => true
  end.

(** What a run printed, in order. *)
Definition printed (tr : list (obs Payload)) : list output :=
  omap (λ o, match o with
             | Obs (print out) _ => Some out
             | Obs _ _ => None
             end) tr.

(** The trace of one or more clock readings. *)
Definition clock_reads (readings : list string) : list (obs Payload) :=
  (λ now, Obs datetime_today_strftime now) <$> readings.
End Traces.

Section Contracts.
Context {Payload W : Type} (h : handler Payload W).

(** The run [ex], started in state [w], is a pass-through to the one
    call [ev]: nothing else is asked of the environment, and the
    answer, value or exception, is the outcome of the run. *)
Definition passes_through (w : W) (ev : event Payload (outcome Payload))
    (ex : execution Payload W (option Payload)) : Prop :=
  trace ex = [Obs ev (h _ ev w).1] ∧
  result ex = (Some <$> (h _ ev w).1) ∧
  world ex = (h _ ev w).2.

(** The best-effort contract of a wrapper [tool] around the provider
    operation [op], for the argument [arg] from state [w]: the
    provider is called once; its value is returned; an [Exception] it
    raises is turned into one printed line, [label] followed by the
    text of the exception, and the result [None]. *)
Definition best_effort (tool : pyval → prog Payload (option Payload))
    (op : pyval → event Payload (outcome Payload)) (label : string)
    (arg : pyval) (w : W) : Prop :=
  let ex := run h (tool arg) w in
  filter (λ o, is_provider_call o = true) (trace ex) =
    [Obs (op arg) (h _ (op arg) w).1] ∧
  (∀ value, (h _ (op arg) w).1 = Ok value →
     result ex = Ok (Some value) ∧ printed (trace ex) = []) ∧
  (∀ e, (h _ (op arg) w).1 = Raised e → is_Exception e = true →
     result ex = Ok None ∧
     printed (trace ex) = [OutLine (label ++ exn_str e)]).
End Contracts.

(** ** A concrete environment

    Provider results are strings; the state counts the calls answered.
    The clock passes midnight after the first call. *)
Module Demo.
Definition dodgers : dict :=
  <["id" := VInt 119]> (<["name" := VStr "Los Angeles Dodgers"]> ∅).

Definition game (pk home away : Z) (status : string)
    (pitcher : option string) : dict :=
  let base : dict :=
    <["game_id" := VInt pk]>
    (<["game_date" := VStr "2024-07-04"]>
    (<["home_id" := VInt home]>
    (<["home_name" := VStr "Home"]>
    (<["home_score" := VInt 5]>
    (<["away_id" := VInt away]>
    (<["away_name" := VStr "Away"]>
    (<["away_score" := VInt 3]>
    (<["status" := VStr status]>
    (<["winning_team" := VStr "Home"]>
    (<["losing_team" := VStr "Away"]> ∅)))))))))) in
  match pitcher with
  | Some p => <["winning_pitcher" := VStr p]> base
  | None => base
  end.

Definition games : list dict :=
  [game 1 100 200 "Final" (Some "Kershaw");
   game 2 300 119 "In Progress" None;
   game 3 119 400 "Final" None].

Definition timeout : exn := Exn (OtherException "ConnectionError") "timed out".

Definition env : handler string nat :=
  λ X ev,
    match ev in event _ X return nat → X * nat with
    | statsapi_lookup_team name _ =>
        λ w, (if py_eq name (VStr "Los Angeles Dodgers")
              then Ok [dodgers] else Ok [], S w)
    | statsapi_schedule _ _ _ => λ w, (Ok games, S w)
    | statsapi_game_scoring_plays _ => λ w, (Ok "plays", S w)
    | statsapi_game_highlights v =>
        λ w, (if is_None v then Raised timeout else Ok "highlights", S w)
    | statsapi_lookup_player v =>
        λ w, (if is_None v then Raised timeout else Ok "player", S w)
    | statsapi_game_pace v =>
        λ w, (if is_None v then Raised timeout else Ok "pace", S w)
    | playerid_lookup _ _ => λ w, (Ok "frame", S w)
    | datetime_today_strftime =>
        λ w, (match w with
              | O => "2024-07-04"
              | S _ => "2024-07-05"
              end, S w)
    | print _ => λ w, (tt, S w)
    end.
End Demo.

(** ** Scripted environments

    The provider answers are fixed in advance, whatever the arguments:
    one answer for the team lookup, one for the schedule, one for the
    scoring plays, and one for every other provider operation.  There
    is no state and the clock stands still. *)
Module Scripted.
Definition env (teams schedule : outcome (list dict))
    (plays others : outcome string) : handler string unit :=
  λ X ev,
    match ev in event _ X return unit → X * unit with
    | statsapi_lookup_team _ _ => λ w, (teams, w)
    | statsapi_schedule _ _ _ => λ w, (schedule, w)
    | statsapi_game_scoring_plays _ => λ w, (plays, w)
    | statsapi_game_highlights _ => λ w, (others, w)
    | statsapi_lookup_player _ => λ w, (others, w)
    | statsapi_game_pace _ => λ w, (others, w)
    | playerid_lookup _ _ => λ w, (others, w)
    | datetime_today_strftime => λ w, ("2024-07-04", w)
    | print _ => λ w, (tt, w)
    end.

Definition interrupt : exn := Exn (NotAnException "KeyboardInterrupt") "".
End Scripted.

(** The keys that [get_daily_results] reads with [game[...]] for a
    finished game, in the order of the dictionary display. *)
Definition copied_fields : list string :=
  ["game_date"; "home_name"; "home_score"; "away_name"; "away_score";
   "winning_team"; "losing_team"].

(** The keys of a daily summary. *)
Definition summary_keys : gset string :=
  list_to_set ["date"; "home_team"; "home_score"; "away_team"; "away_score";
               "winning_team"; "losing_team"; "MVP"].

(** ** Running tool bodies *)

Section RunLemmas.
Context {Payload W : Type} (h : handler Payload W).

Lemma run_bind {A B} (p : prog Payload A) (f : A → prog Payload B) (w : W) :
  run h (prog_bind f p) w =
  match result (run h p w) with
  | Ok a =>
      let ex := run h (f a) (world (run h p w)) in
      Exec (result ex) (trace (run h p w) ++ trace ex)%list (world ex)
  | Raised e => Exec (Raised e) (trace (run h p w)) (world (run h p w))
  end.
Proof.
  revert w. induction p as [a|e|X ev k IH]; intros w; cbn.
  - by destruct (run h (f a) w).
  - done.
  - destruct (h X ev w) as [x w1]. cbn.
    rewrite IH. by destruct (result (run h (k x) w1)).
Qed.

Lemma run_bind_Ok {A B} (p : prog Payload A) (f : A → prog Payload B)
    (a : A) (tr : list (obs Payload)) (w w1 : W) :
  run h p w = Exec (Ok a) tr w1 →
  run h (prog_bind f p) w = prepend tr (run h (f a) w1).
Proof. intros Hp. rewrite run_bind, Hp. done. Qed.

Lemma run_lift {A} (r : outcome A) (w : W) :
  run h (lift r) w = Exec r [] w.
Proof. by destruct r. Qed.

Lemma run_perform {X} (ev : event Payload (outcome X)) (w : W) :
  run h (perform ev) w =
  Exec (h _ ev w).1 [Obs ev (h _ ev w).1] (h _ ev w).2.
Proof.
  unfold perform. cbn. destruct (h _ ev w) as [r w1]. cbn.
  by rewrite run_lift.
Qed.

Lemma run_ask {X} (ev : event Payload X) (w : W) :
  run h (ask ev) w =
  Exec (Ok (h _ ev w).1) [Obs ev (h _ ev w).1] (h _ ev w).2.
Proof. unfold ask. cbn. by destruct (h _ ev w). Qed.

Lemma run_today (w : W) :
  run h today w =
  Exec (Ok (VStr (h _ datetime_today_strftime w).1))
       (clock_reads [(h _ datetime_today_strftime w).1])
       (h _ datetime_today_strftime w).2.
Proof. unfold today. cbn. by destruct (h _ datetime_today_strftime w). Qed.
End RunLemmas.

(** Exposes the binds of a tool body to the rewriting lemmas above. *)
Ltac monad_binds := unfold mbind, prog_mbind, mret, prog_ret in *.

(** ** The game matcher *)

Lemma dict_truthy_lookup (d : dict) (k : string) :
  is_Some (d !! k) → dict_truthy d = true.
Proof.
  intros [v Hv]. unfold dict_truthy.
  destruct (Nat.eqb_spec (size d) 0) as [Hz|]; [|done].
  apply map_size_empty_inv in Hz. subst d. by rewrite lookup_empty in Hv.
Qed.

Lemma find_games_by_team_id_skip (game : dict) (rest : list dict) (team_id : pyval) :
  is_game game → plays_in team_id game = false →
  find_games_by_team_id (game :: rest) team_id = find_games_by_team_id rest team_id.
Proof.
  intros [[home Hh] [away Ha]]. unfold plays_in, field_eq.
  rewrite Hh, Ha. intros [Hne1 Hne2]%orb_false_iff.
  cbn. unfold getitem. rewrite Hh. cbn. rewrite Hne1, Ha. cbn. by rewrite Hne2.
Qed.

Lemma find_games_by_team_id_hit (game : dict) (rest : list dict) (team_id : pyval) :
  is_game game → plays_in team_id game = true →
  find_games_by_team_id (game :: rest) team_id = Ok (Some game).
Proof.
  intros [[home Hh] [away Ha]]. unfold plays_in, field_eq.
  rewrite Hh, Ha. intros Hm.
  cbn. unfold getitem. rewrite Hh. cbn.
  destruct (py_eq home team_id); [done|]. rewrite Ha. cbn.
  cbn in Hm. by rewrite Hm.
Qed.

Lemma find_games_by_team_id_found (games : list dict) (team_id : pyval) (game : dict) :
  find_games_by_team_id games team_id = Ok (Some game) →
  is_Some (game !! "home_id").
Proof.
  induction games as [|g rest IH]; [done|].
  cbn. unfold getitem.
  destruct (g !! "home_id") as [home|] eqn:Hh; [|done]. cbn.
  destruct (py_eq home team_id).
  - intros [= <-]. by exists home.
  - destruct (g !! "away_id") as [away|]; [|done]. cbn.
    destruct (py_eq away team_id); [|done].
    intros [= <-]. by exists home.
Qed.

(** C3. Over a list of game records, [find_games_by_team_id] returns the
    first game, in list order, whose home id or away id equals the team
    id; when no game of the list does, it returns [None] and raises
    nothing. *)
Theorem find_games_by_team_id_first_match (games : list dict) (team_id : pyval) :
  Forall is_game games →
  (∀ before game after,
     games = (before ++ game :: after)%list →
     Forall (λ g, plays_in team_id g = false) before →
     plays_in team_id game = true →
     find_games_by_team_id games team_id = Ok (Some game)) ∧
  (Forall (λ g, plays_in team_id g = false) games →
   find_games_by_team_id games team_id = Ok None).
Proof.
  intros Hwf. split.
  - intros before game after ->. revert Hwf.
    induction before as [|g before IH]; intros Hwf Hnone Hyes.
    + apply Forall_cons in Hwf as [Hg _]. by apply find_games_by_team_id_hit.
    + apply Forall_cons in Hwf as [Hg Hwf].
      apply Forall_cons in Hnone as [Hno Hnone].
      change (find_games_by_team_id (g :: (before ++ game :: after)%list) team_id
              = Ok (Some game)).
      rewrite find_games_by_team_id_skip by done. by apply IH.
  - induction Hwf as [|g games Hg Hwf IH]; intros Hnone; [done|].
    apply Forall_cons in Hnone as [Hno Hnone].
    rewrite find_games_by_team_id_skip by done. by apply IH.
Qed.

(** ** The daily summary builder: its pure part *)

Lemma daily_summary_summarises (game : dict) :
  Forall (λ k, is_Some (game !! k))
    ["game_date"; "home_name"; "home_score"; "away_name"; "away_score";
     "winning_team"; "losing_team"] →
  ∃ summary, daily_summary game = Ok summary ∧ summarises game summary.
Proof.
  intros Hkeys.
  repeat (apply Forall_cons in Hkeys as [[? ?] Hkeys]).
  unfold daily_summary, getitem, dict_get. monad_binds.
  repeat match goal with H : game !! _ = Some _ |- _ => rewrite H end.
  cbn. eexists. split; [reflexivity|].
  unfold summarises.
  repeat match goal with H : game !! _ = Some _ |- _ => rewrite H end.
  repeat split;
    rewrite ?lookup_insert_eq, ?lookup_insert_ne, ?lookup_insert_eq by done;
    done.
Qed.

Lemma daily_results_loop_summaries (schedule : list dict) :
  Forall is_scheduled_game schedule →
  ∀ results, ∃ summaries,
    daily_results_loop schedule results = Ok (results ++ summaries)%list ∧
    Forall2 summarises (List.filter is_Final schedule) summaries.
Proof.
  induction 1 as [|game rest [[status Hst] Hfields] _ IH]; intros results.
  - exists []. cbn. by rewrite app_nil_r.
  - cbn [daily_results_loop List.filter]. unfold getitem at 1.
    unfold is_Final, field_eq in *. rewrite Hst in *.
    cbn [mbind outcome_mbind outcome_bind].
    destruct (py_eq status (VStr "Final")).
    + destruct (daily_summary_summarises game (Hfields eq_refl))
        as (summary & -> & Hsum).
      cbn [mbind outcome_mbind outcome_bind].
      destruct (IH (results ++ [summary])%list) as (summaries & -> & Hall).
      exists (summary :: summaries). split.
      * by rewrite <- app_assoc.
      * by constructor.
    + apply IH.
Qed.

(** ** The tools *)

Section Properties.
Context {Payload W : Type} (h : handler Payload W).

(** *** Team resolver *)

Lemma run_look_up_team (team_name : pyval) (w : W) :
  run h (look_up_team team_name) w =
  let '(answer, w1) := h _ (statsapi_lookup_team team_name "Y") w in
  match answer with
  | Ok teams =>
      Exec (list_getitem teams 0)
           [Obs (statsapi_lookup_team team_name "Y") answer;
            Obs (print (OutTeams teams)) (h _ (print (OutTeams teams)) w1).1]
           (h _ (print (OutTeams teams)) w1).2
  | Raised e =>
      Exec (Raised e) [Obs (statsapi_lookup_team team_name "Y") answer] w1
  end.
Proof.
  unfold look_up_team. monad_binds. rewrite run_bind, run_perform.
  destruct (h _ (statsapi_lookup_team team_name "Y") w) as [[teams|e] w1];
    cbn [result trace world fst snd]; [|done].
  rewrite run_bind, run_ask. cbn [result trace world fst snd].
  by rewrite run_lift.
Qed.

(** C1. When the provider's team lookup answers with a non-empty
    list, [look_up_team] returns the first element of that list, as it
    is. *)
Theorem look_up_team_returns_first
    (team_name : pyval) (team : dict) (others : list dict) (w w1 : W) :
  h _ (statsapi_lookup_team team_name "Y") w = (Ok (team :: others), w1) →
  result (run h (look_up_team team_name) w) = Ok team.
Proof. intros Hq. rewrite run_look_up_team, Hq. done. Qed.

(** C2. When the provider's team lookup answers with an empty list,
    [look_up_team] raises [IndexError]; it returns no value, absent or
    otherwise. *)
Theorem look_up_team_empty_raises (team_name : pyval) (w w1 : W) :
  h _ (statsapi_lookup_team team_name "Y") w = (Ok [], w1) →
  result (run h (look_up_team team_name) w) = Raised index_error ∧
  exn_cls index_error = IndexError ∧
  ∀ team, result (run h (look_up_team team_name) w) ≠ Ok team.
Proof.
  intros Hq. rewrite run_look_up_team, Hq. cbn. by repeat split.
Qed.

(** *** Schedule fetcher *)

Lemma run_default_date (date : pyval) (w : W) :
  ∃ date' reads w',
    defaulted date date' reads ∧
    run h (if is_None date then today else Ret date) w =
    Exec (Ok date') (clock_reads reads) w'.
Proof.
  destruct date; cbn [is_None].
  - eexists _, _, _. split; [apply defaulted_today|]. by rewrite run_today.
  - by eexists _, [], w; split; [apply defaulted_given|].
  - by eexists _, [], w; split; [apply defaulted_given|].
  - by eexists _, [], w; split; [apply defaulted_given|].
Qed.

(** C5. In [get_mlb_schedule] an absent start date and an absent end
    date each become the date read from the clock for it during the
    call, a given date is passed on as it is, and the provider is
    queried once, after the clock: with the team filter when a team
    id is given, without one otherwise.  The provider's answer is the
    result. *)
Theorem get_mlb_schedule_defaults (start_date end_date team_id : pyval) (w : W) :
  ∃ start_date' end_date' reads_start reads_end answer,
    defaulted start_date start_date' reads_start ∧
    defaulted end_date end_date' reads_end ∧
    trace (run h (get_mlb_schedule start_date end_date team_id) w) =
      (clock_reads (reads_start ++ reads_end) ++
       [Obs (statsapi_schedule (team_filter team_id) start_date' end_date')
            answer])%list ∧
    result (run h (get_mlb_schedule start_date end_date team_id) w) = answer.
Proof.
  unfold get_mlb_schedule. monad_binds.
  destruct (run_default_date start_date w) as (sd & r1 & w1 & Hsd & Hrun1).
  destruct (run_default_date end_date w1) as (ed & r2 & w2 & Hed & Hrun2).
  rewrite run_bind, Hrun1. cbn [result trace world].
  rewrite run_bind, Hrun2. cbn [result trace world].
  exists sd, ed, r1, r2.
  assert (Hclock : (clock_reads r1 ++ clock_reads r2)%list
                   = clock_reads (Payload := Payload) (r1 ++ r2)%list).
  { unfold clock_reads. by rewrite fmap_app. }
  destruct team_id; cbn [is_None negb team_filter];
    rewrite run_perform; cbn [result trace world];
    eexists; (split; [exact Hsd|]); (split; [exact Hed|]);
    by rewrite <- Hclock, <- app_assoc.
Qed.

(** *** Player lookup *)

(** C6. [player_id_lookup] chooses its provider call by which names
    are present and by nothing else: both names, an exact lookup by
    last and first name; only the last name, a fuzzy lookup on it;
    only the first name, a fuzzy lookup with the first name as the
    only positional argument; neither, no call and the result
    [None]. *)
Theorem player_id_lookup_dispatch
    (last_name first_name : pyval) (fuzzy : bool) (w : W) :
  let ex := run h (player_id_lookup last_name first_name fuzzy) w in
  match is_None last_name, is_None first_name with
  | false, false =>
      passes_through h w (playerid_lookup [last_name; first_name] false) ex
  | false, true => passes_through h w (playerid_lookup [last_name] true) ex
  | true, false => passes_through h w (playerid_lookup [first_name] true) ex
  | true, true => result ex = Ok None ∧ trace ex = []
  end.
Proof.
  unfold player_id_lookup, passes_through. monad_binds.
  destruct (is_None last_name), (is_None first_name);
    cbn [negb andb]; [done|..];
    rewrite run_bind, run_perform; cbn [result trace world];
    match goal with
    | |- context [h _ ?ev w] => destruct (h _ ev w) as [[data|e] w1]
    end; cbn; by rewrite ?app_nil_r.
Qed.

(** C10. The [fuzzy] argument of [player_id_lookup] is never read: two
    calls that differ only in it make the same provider call and end
    in the same result, from any state of any environment. *)
Theorem player_id_lookup_ignores_fuzzy (last_name first_name : pyval) (w : W) :
  run h (player_id_lookup last_name first_name true) w =
  run h (player_id_lookup last_name first_name false) w.
Proof. reflexivity. Qed.

(** *** Best-effort lookups *)

Lemma run_try_except_perform
    (ev : event Payload (outcome Payload)) (label : string) (w : W) :
  run h (try_except_Exception
           (prog_bind (λ x, Ret (Some x)) (perform ev))
           (λ e, prog_bind (λ _, Ret None)
                   (ask (print (OutLine (label ++ exn_str e)))))) w =
  let '(answer, w1) := h _ ev w in
  match answer with
  | Ok value => Exec (Ok (Some value)) [Obs ev answer] w1
  | Raised e =>
      if is_Exception e then
        Exec (Ok None)
             [Obs ev answer;
              Obs (print (OutLine (label ++ exn_str e)))
                  (h _ (print (OutLine (label ++ exn_str e))) w1).1]
             (h _ (print (OutLine (label ++ exn_str e))) w1).2
      else Exec (Raised e) [Obs ev answer] w1
  end.
Proof.
  cbn. destruct (h _ ev w) as [[value|e] w1]; cbn; [done|].
  destruct (is_Exception e); cbn; [|done].
  by destruct (h _ (print (OutLine (label ++ exn_str e))) w1).
Qed.

(** C7. [get_player_info], [get_game_highlights] and [game_pace] each
    call their provider operation once and return what it returns;
    when the call raises an [Exception] they print one diagnostic
    line and return [None] instead of raising. *)
Theorem best_effort_lookups (arg : pyval) (w : W) :
  best_effort h get_player_info statsapi_lookup_player
    "Error retrieving player information: " arg w ∧
  best_effort h get_game_highlights statsapi_game_highlights
    "Error retrieving game highlights: " arg w ∧
  best_effort h game_pace statsapi_game_pace
    "Error calling statsapi.game_pace: " arg w.
Proof.
  unfold best_effort, get_player_info, get_game_highlights, game_pace.
  monad_binds. rewrite !run_try_except_perform.
  repeat split;
    match goal with
    | |- context [h _ ?ev w] => destruct (h _ ev w) as [[v|x] w1]
    end; cbn [fst snd] in *; simplify_eq;
    repeat match goal with
           | H : is_Exception _ = true |- _ => rewrite H
           | |- context [is_Exception ?x] => destruct (is_Exception x)
           end;
    done.
Qed.

(** *** Daily summary builder *)

(** C4. Whatever schedule the provider returns to [get_daily_results],
    the result holds one summary for each game whose status is
    "Final" and none for the others, in the provider's order; each is
    the fixed field mapping of its game, with "MVP" the game's
    "winning_pitcher" when the game has one and "N/A" otherwise. *)
Theorem get_daily_results_final_games
    (date : pyval) (schedule : list dict) (w : W) :
  schedule_answers (trace (run h (get_daily_results date) w)) = [Ok schedule] →
  Forall is_scheduled_game schedule →
  ∃ summaries,
    result (run h (get_daily_results date) w) = Ok summaries ∧
    Forall2 summarises (List.filter is_Final schedule) summaries.
Proof.
  unfold get_daily_results. monad_binds. intros Hanswer Hgames.
  destruct (run_default_date date w) as (d & reads & w1 & _ & Hrun1).
  rewrite run_bind, Hrun1 in *. cbn [result trace world] in *.
  rewrite run_bind, run_perform in *. cbn [result trace world] in *.
  assert (Hclock : schedule_answers (clock_reads (Payload := Payload) reads) = []).
  { clear. by induction reads. }
  destruct (h _ (statsapi_schedule None d d) w1) as [[games|e] w2];
    cbn [fst snd result trace world] in *.
  - rewrite run_lift in *. cbn [result trace] in *.
    unfold schedule_answers in *. rewrite !omap_app, Hclock in Hanswer.
    cbn in Hanswer. simplify_eq.
    destruct (daily_results_loop_summaries schedule Hgames [])
      as (summaries & Hloop & Hall).
    exists summaries. by rewrite Hloop.
  - unfold schedule_answers in *. rewrite !omap_app, Hclock in Hanswer.
    cbn in Hanswer. simplify_eq.
Qed.

(** *** Team result: resolver, fetcher, matcher, aggregator *)

Lemma look_up_team_asks (team_name : pyval) (w : W) :
  Forall (λ o, is_aggregator_call o = false ∧ is_schedule_query o = false)
    (trace (run h (look_up_team team_name) w)).
Proof.
  rewrite run_look_up_team.
  destruct (h _ (statsapi_lookup_team team_name "Y") w) as [[teams|e] w1];
    cbn [trace]; by repeat constructor.
Qed.

Lemma get_mlb_schedule_asks (start_date end_date team_id : pyval) (w : W) :
  Forall (λ o, is_aggregator_call o = false)
    (trace (run h (get_mlb_schedule start_date end_date team_id) w)).
Proof.
  unfold get_mlb_schedule. monad_binds.
  destruct (run_default_date start_date w) as (sd & r1 & w1 & _ & Hrun1).
  destruct (run_default_date end_date w1) as (ed & r2 & w2 & _ & Hrun2).
  rewrite run_bind, Hrun1. cbn [result trace world].
  rewrite run_bind, Hrun2. cbn [result trace world].
  assert (Hclock : ∀ reads,
    Forall (λ o, is_aggregator_call o = false)
      (clock_reads (Payload := Payload) reads)).
  { intros reads. induction reads; by constructor. }
  destruct (negb (is_None team_id)); rewrite run_perform; cbn [trace];
    rewrite !Forall_app; repeat split; auto; by repeat constructor.
Qed.

(** C8. With the team resolved and its schedule fetched: when the game
    matcher finds a game, [mlb_team_result] asks the provider for the
    scoring plays and then the highlights of that game's id and
    returns the record of the two answers, whatever they hold; when
    the matcher finds none, it returns [None] and neither of the two
    aggregator operations is called. *)
Theorem mlb_team_result_aggregates
    (team_name date team_id : pyval) (teamInfo : dict) (games : list dict)
    (tr1 tr2 : list (obs Payload)) (w w1 w2 : W) :
  run h (look_up_team team_name) w = Exec (Ok teamInfo) tr1 w1 →
  teamInfo !! "id" = Some team_id →
  run h (get_mlb_schedule date date team_id) w1 = Exec (Ok games) tr2 w2 →
  (∀ game gamePk plays highlights w3 w4,
     find_games_by_team_id games team_id = Ok (Some game) →
     game !! "game_id" = Some gamePk →
     h _ (statsapi_game_scoring_plays gamePk) w2 = (Ok plays, w3) →
     h _ (statsapi_game_highlights gamePk) w3 = (Ok highlights, w4) →
     run h (mlb_team_result team_name date) w =
     Exec (Ok (Some (GameResult plays highlights)))
          (tr1 ++ tr2 ++
           [Obs (statsapi_game_scoring_plays gamePk) (Ok plays);
            Obs (statsapi_game_highlights gamePk) (Ok highlights)])%list
          w4) ∧
  (find_games_by_team_id games team_id = Ok None →
   result (run h (mlb_team_result team_name date) w) = Ok None ∧
   Forall (λ o, is_aggregator_call o = false)
     (trace (run h (mlb_team_result team_name date) w))).
Proof.
  intros Hteam Hid Hsched.
  assert (Htr1 : Forall (λ o, is_aggregator_call o = false) tr1).
  { pose proof (look_up_team_asks team_name w) as Hasks.
    rewrite Hteam in Hasks. cbn [trace] in Hasks.
    eapply Forall_impl; [exact Hasks|]. by intros o [? _]. }
  assert (Htr2 : Forall (λ o, is_aggregator_call o = false) tr2).
  { pose proof (get_mlb_schedule_asks date date team_id w1) as Hasks.
    by rewrite Hsched in Hasks. }
  assert (Hprefix : ∀ k : option dict → prog Payload (option (game_result Payload)),
    run h (prog_bind (λ teamInfo,
             prog_bind (λ team_id,
               prog_bind (λ games,
                 prog_bind (λ team_id',
                   prog_bind k (lift (find_games_by_team_id games team_id')))
                   (lift (getitem teamInfo "id")))
                 (get_mlb_schedule date date team_id))
               (lift (getitem teamInfo "id")))
           (look_up_team team_name)) w =
    prepend tr1 (prepend tr2
      (run h (prog_bind k (lift (find_games_by_team_id games team_id))) w2))).
  { intros k. rewrite (run_bind_Ok _ _ _ _ _ _ _ Hteam).
    unfold getitem. rewrite Hid. cbn [lift prog_bind].
    rewrite (run_bind_Ok _ _ _ _ _ _ _ Hsched). by cbn [lift prog_bind]. }
  unfold mlb_team_result. monad_binds. rewrite Hprefix. split.
  - intros game gamePk plays highlights w3 w4 Hfind Hpk Hplays Hhl.
    rewrite Hfind. cbn [lift prog_bind].
    rewrite (dict_truthy_lookup game "home_id")
      by (by eapply find_games_by_team_id_found).
    unfold getitem. rewrite Hpk. cbn [lift prog_bind perform run].
    rewrite Hplays. cbn [lift prog_bind run].
    rewrite Hhl. done.
  - intros Hfind. rewrite Hfind. cbn. rewrite app_nil_r.
    split; [done|]. by apply Forall_app.
Qed.

(** C9. [mlb_team_result] resolves the team before anything else: its
    run opens with the whole run of [look_up_team], in which the
    schedule provider is not queried; and when the team lookup
    answers with an empty list, the [IndexError] reaches the caller
    and the schedule provider is never queried. *)
Theorem mlb_team_result_fail_fast (team_name date : pyval) (w : W) :
  (∃ rest,
     trace (run h (mlb_team_result team_name date) w) =
       (trace (run h (look_up_team team_name) w) ++ rest)%list ∧
     Forall (λ o, is_schedule_query o = false)
       (trace (run h (look_up_team team_name) w))) ∧
  (∀ w1,
     h _ (statsapi_lookup_team team_name "Y") w = (Ok [], w1) →
     result (run h (mlb_team_result team_name date) w) = Raised index_error ∧
     Forall (λ o, is_schedule_query o = false)
       (trace (run h (mlb_team_result team_name date) w))).
Proof.
  unfold mlb_team_result. monad_binds. rewrite run_bind. split.
  - assert (Hasks : Forall (λ o, is_schedule_query o = false)
                      (trace (run h (look_up_team team_name) w))).
    { eapply Forall_impl; [apply look_up_team_asks|]. by intros o [_ ?]. }
    destruct (result (run h (look_up_team team_name) w)); cbn [trace].
    + by eexists.
    + exists []. by rewrite app_nil_r.
  - intros w1 Hq. rewrite run_look_up_team, Hq.
    cbn. by repeat constructor.
Qed.
End Properties.

(** ** The theorems at work in the concrete environment *)

Lemma look_up_team_returns_first_witness :
  Demo.env _ (statsapi_lookup_team (VStr "Los Angeles Dodgers") "Y") 0
    = (Ok [Demo.dodgers], 1) ∧
  result (run Demo.env (look_up_team (VStr "Los Angeles Dodgers")) 0)
    = Ok Demo.dodgers.
Proof.
  split; [reflexivity|].
  apply (look_up_team_returns_first Demo.env _ Demo.dodgers [] 0 1).
  reflexivity.
Defined.

Lemma look_up_team_empty_raises_witness :
  Demo.env _ (statsapi_lookup_team (VStr "Nonexistent Team X") "Y") 0
    = (Ok [], 1) ∧
  result (run Demo.env (look_up_team (VStr "Nonexistent Team X")) 0)
    = Raised index_error.
Proof.
  split; [reflexivity|].
  apply (look_up_team_empty_raises Demo.env (VStr "Nonexistent Team X") 0 1).
  reflexivity.
Defined.

Lemma demo_games_are_games : Forall is_game Demo.games.
Proof.
  repeat constructor; eexists; vm_compute; reflexivity.
Defined.

Lemma find_games_by_team_id_first_match_witness :
  Forall is_game Demo.games ∧
  find_games_by_team_id Demo.games (VInt 119)
    = Ok (Some (Demo.game 2 300 119 "In Progress" None)).
Proof.
  split; [exact demo_games_are_games|].
  apply (proj1 (find_games_by_team_id_first_match Demo.games (VInt 119)
                  demo_games_are_games)
           [Demo.game 1 100 200 "Final" (Some "Kershaw")]
           (Demo.game 2 300 119 "In Progress" None)
           [Demo.game 3 119 400 "Final" None]).
  - reflexivity.
  - repeat constructor.
  - vm_compute. reflexivity.
Defined.

Lemma demo_games_are_scheduled : Forall is_scheduled_game Demo.games.
Proof.
  repeat constructor; try (eexists; vm_compute; reflexivity);
    intros Hfinal; try discriminate Hfinal;
    repeat constructor; eexists; vm_compute; reflexivity.
Defined.

Lemma get_daily_results_final_games_witness :
  schedule_answers (trace (run Demo.env (get_daily_results VNone) 0))
    = [Ok Demo.games] ∧
  ∃ summaries,
    result (run Demo.env (get_daily_results VNone) 0) = Ok summaries ∧
    Forall2 summarises
      [Demo.game 1 100 200 "Final" (Some "Kershaw");
       Demo.game 3 119 400 "Final" None]
      summaries.
Proof.
  split; [reflexivity|].
  exact (get_daily_results_final_games Demo.env VNone Demo.games 0
           eq_refl demo_games_are_scheduled).
Defined.

Lemma best_effort_lookups_witness :
  is_Exception Demo.timeout = true ∧
  result (run Demo.env (get_player_info VNone) 0) = Ok None ∧
  printed (trace (run Demo.env (get_game_highlights VNone) 0))
    = [OutLine "Error retrieving game highlights: timed out"] ∧
  result (run Demo.env (game_pace (VInt 2008)) 0) = Ok (Some "pace").
Proof.
  destruct (best_effort_lookups Demo.env VNone 0)
    as ((_ & _ & Hinfo) & (_ & _ & Hhighlights) & _).
  destruct (best_effort_lookups Demo.env (VInt 2008) 0)
    as (_ & _ & (_ & Hpace & _)).
  split; [reflexivity|]. split; [|split].
  - exact (proj1 (Hinfo Demo.timeout eq_refl eq_refl)).
  - exact (proj2 (Hhighlights Demo.timeout eq_refl eq_refl)).
  - exact (proj1 (Hpace "pace" eq_refl)).
Defined.

Lemma mlb_team_result_aggregates_witness :
  find_games_by_team_id Demo.games (VInt 119)
    = Ok (Some (Demo.game 2 300 119 "In Progress" None)) ∧
  result (run Demo.env (mlb_team_result (VStr "Los Angeles Dodgers") VNone) 0)
    = Ok (Some (GameResult "plays" "highlights")).
Proof.
  split; [vm_compute; reflexivity|].
  pose proof (mlb_team_result_aggregates Demo.env
                (VStr "Los Angeles Dodgers") VNone (VInt 119)
                Demo.dodgers Demo.games _ _ 0 2 5
                eq_refl eq_refl eq_refl) as [Hfound _].
  rewrite (Hfound (Demo.game 2 300 119 "In Progress" None) (VInt 2)
             "plays" "highlights" 6 7); reflexivity.
Defined.

Lemma mlb_team_result_fail_fast_witness :
  Demo.env _ (statsapi_lookup_team (VStr "Nonexistent Team X") "Y") 0
    = (Ok [], 1) ∧
  result (run Demo.env (mlb_team_result (VStr "Nonexistent Team X") VNone) 0)
    = Raised index_error ∧
  Forall (λ o, is_schedule_query o = false)
    (trace (run Demo.env (mlb_team_result (VStr "Nonexistent Team X") VNone) 0)).
Proof.
  split; [reflexivity|].
  exact (proj2 (mlb_team_result_fail_fast Demo.env
                  (VStr "Nonexistent Team X") VNone 0) 1 eq_refl).
Defined.

(** ** Worked examples *)

(** Three games with statuses Final, In Progress, Final: two summaries,
    the first with the winning pitcher, the second with "N/A". *)
Example daily_results_three_games :
  match result (run Demo.env (get_daily_results (VStr "2024-07-04")) 0) with
  | Ok summaries => List.map (λ s : dict, s !! "MVP") summaries
  | Raised _ => []
  end = [Some (VStr "Kershaw"); Some (VStr "N/A")].
Proof. vm_compute. reflexivity. Qed.

(** Two games, 100 against 200 and then 300 against 400: the team 300 is
    matched to the second. *)
Example find_second_game :
  find_games_by_team_id
    [Demo.game 1 100 200 "Final" None; Demo.game 2 300 400 "Final" None]
    (VInt 300)
  = Ok (Some (Demo.game 2 300 400 "Final" None)).
Proof. vm_compute. reflexivity. Qed.

(** A team in no game of the list. *)
Example find_no_game : find_games_by_team_id Demo.games (VInt 7) = Ok None.
Proof. vm_compute. reflexivity. Qed.

(** A dictionary without ['home_id'] is not a game record: reading the
    key raises. *)
Example find_in_malformed_record :
  find_games_by_team_id [Demo.dodgers] (VInt 119) = Raised (key_error "home_id").
Proof. vm_compute. reflexivity. Qed.

(** The clock is read once per absent date: across midnight the two
    defaults differ. *)
Example schedule_across_midnight :
  trace (run Demo.env (get_mlb_schedule VNone VNone (VInt 119)) 0)
  = [Obs datetime_today_strftime "2024-07-04";
     Obs datetime_today_strftime "2024-07-05";
     Obs (statsapi_schedule (Some (VInt 119))
            (VStr "2024-07-04") (VStr "2024-07-05")) (Ok Demo.games)].
Proof. reflexivity. Qed.

(** [player_id_lookup("Ohtani", None, False)]: a fuzzy lookup keyed on
    "Ohtani". *)
Example lookup_ohtani :
  trace (run Demo.env (player_id_lookup (VStr "Ohtani") VNone false) 0)
  = [Obs (playerid_lookup [VStr "Ohtani"] true) (Ok "frame")].
Proof. reflexivity. Qed.

(** [except Exception] lets through what is not an [Exception]. *)
Example interrupt_not_swallowed :
  let interrupt := Exn (NotAnException "KeyboardInterrupt") "" in
  let env : handler string unit :=
    λ X ev,
      match ev in event _ X return unit → X * unit with
      | datetime_today_strftime => λ w, ("2024-07-04", w)
      | print _ => λ w, (tt, w)
      | _ => λ w, (Raised interrupt, w)
      end in
  result (run env (game_pace (VInt 2008)) tt) = Raised interrupt.
Proof. reflexivity. Qed.

(** ** Beyond the specification: the game matcher at its edges *)

Lemma find_games_by_team_id_app (before rest : list dict) (team_id : pyval) :
  Forall is_game before →
  Forall (λ g, plays_in team_id g = false) before →
  find_games_by_team_id (before ++ rest)%list team_id =
  find_games_by_team_id rest team_id.
Proof.
  induction 1 as [|g before Hg _ IH]; intros Hno; [done|].
  apply Forall_cons in Hno as [Hg' Hno].
  change (find_games_by_team_id (g :: (before ++ rest)%list) team_id
          = find_games_by_team_id rest team_id).
  rewrite find_games_by_team_id_skip by done. by apply IH.
Qed.

(** X1. The scan stops at the first match.  The records after it are never
    read, whatever they are; and a record whose home id matches is
    returned without its away id being read. *)
Theorem find_games_by_team_id_stops_at_match
    (before after : list dict) (game : dict) (team_id : pyval) :
  Forall is_game before →
  Forall (λ g, plays_in team_id g = false) before →
  field_eq game "home_id" team_id = true ∨
  (is_Some (game !! "home_id") ∧ field_eq game "away_id" team_id = true) →
  find_games_by_team_id (before ++ game :: after)%list team_id = Ok (Some game).
Proof.
  intros Hwf Hno Hmatch. rewrite find_games_by_team_id_app by done.
  cbn. unfold getitem, field_eq in *.
  destruct Hmatch as [Hhome|[[home Hhome] Haway]].
  - destruct (game !! "home_id") as [home|]; [|done]. cbn. by rewrite Hhome.
  - rewrite Hhome. cbn. destruct (py_eq home team_id); [done|].
    destruct (game !! "away_id") as [away|]; [|done]. cbn. by rewrite Haway.
Qed.

(** X2. A record that the scan reaches and that lacks the key it reads
    makes the whole search raise [KeyError] for that key: ['home_id']
    first, ['away_id'] only when the home id differs from the team. *)
Theorem find_games_by_team_id_missing_key
    (before after : list dict) (game : dict) (team_id : pyval) :
  Forall is_game before →
  Forall (λ g, plays_in team_id g = false) before →
  (game !! "home_id" = None →
   find_games_by_team_id (before ++ game :: after)%list team_id
   = Raised (key_error "home_id")) ∧
  (∀ home, game !! "home_id" = Some home → py_eq home team_id = false →
   game !! "away_id" = None →
   find_games_by_team_id (before ++ game :: after)%list team_id
   = Raised (key_error "away_id")).
Proof.
  intros Hwf Hno. rewrite find_games_by_team_id_app by done.
  cbn. unfold getitem. split.
  - by intros ->.
  - intros home -> Hne ->. cbn. by rewrite Hne.
Qed.

(** X3. Without any assumption on the records: a game that is returned is
    an element of the list, the team plays in it, and it is a non-empty
    dictionary (so the test [if (game)] of the caller succeeds); and
    [None] is returned only when every record has both ids and the team
    plays in none. *)
Theorem find_games_by_team_id_sound (games : list dict) (team_id : pyval) :
  (∀ game, find_games_by_team_id games team_id = Ok (Some game) →
     game ∈ games ∧ plays_in team_id game = true ∧ dict_truthy game = true) ∧
  (find_games_by_team_id games team_id = Ok None →
     Forall (λ g, is_game g ∧ plays_in team_id g = false) games).
Proof.
  induction games as [|g rest [IHsome IHnone]]; [split; [done|by constructor]|].
  cbn. unfold getitem, plays_in, field_eq, is_game.
  destruct (g !! "home_id") as [home|] eqn:Hh; [|done]. cbn.
  destruct (py_eq home team_id) eqn:Hhome.
  { split; [|done]. intros game [= <-]. rewrite Hh, Hhome.
    split; [apply elem_of_cons; by left|].
    split; [done|]. by apply (dict_truthy_lookup g "home_id"). }
  destruct (g !! "away_id") as [away|] eqn:Ha; [|done]. cbn.
  destruct (py_eq away team_id) eqn:Haway.
  { split; [|done]. intros game [= <-]. rewrite Hh, Ha, Hhome, Haway.
    split; [apply elem_of_cons; by left|].
    split; [done|]. by apply (dict_truthy_lookup g "home_id"). }
  split.
  - intros game Hfound. destruct (IHsome game Hfound) as (? & ? & ?).
    split; [apply elem_of_cons; by right|done].
  - intros Hnone. constructor; [|by apply IHnone].
    rewrite Hh, Ha, Hhome, Haway. by repeat split.
Qed.

(** ** Beyond the specification: the summary of one game *)

(** X4. A summary has the eight keys of the dictionary display and no
    other: no further field of the provider's record is carried over. *)
Theorem daily_summary_keys (game summary : dict) :
  daily_summary game = Ok summary → dom summary = summary_keys.
Proof.
  unfold daily_summary, getitem. monad_binds.
  repeat match goal with
         | |- context [game !! ?k] =>
             lazymatch k with
             | "winning_pitcher" => fail
             | _ => destruct (game !! k); [cbn|done]
             end
         end.
  intros [= <-]. rewrite !dom_insert_L, dom_empty_L.
  unfold summary_keys. cbn. set_solver.
Qed.

(** X5. A finished game that lacks one of the copied fields has no summary:
    building it raises [KeyError] for the first missing key, in the
    order of the dictionary display. *)
Theorem daily_summary_missing_field
    (game : dict) (present missing : list string) (k : string) :
  copied_fields = (present ++ k :: missing)%list →
  Forall (λ k', is_Some (game !! k')) present →
  game !! k = None →
  daily_summary game = Raised (key_error k).
Proof.
  unfold copied_fields, daily_summary, getitem. monad_binds.
  intros Hsplit Hpresent Hk.
  repeat (destruct present as [|? present];
          [ injection Hsplit as <- _; by rewrite Hk
          | injection Hsplit as <- Hsplit;
            apply Forall_cons in Hpresent as [[? ->] Hpresent]; cbn ]).
  by destruct present.
Qed.

(** ** Beyond the specification: the tools at their edges *)

Lemma daily_results_loop_missing_status
    (before after : list dict) (game : dict) (results : list dict) :
  Forall is_scheduled_game before →
  game !! "status" = None →
  daily_results_loop (before ++ game :: after)%list results
  = Raised (key_error "status").
Proof.
  intros Hwf Hst. revert results.
  induction Hwf as [|g before [[status Hs] Hfields] _ IH]; intros results.
  - cbn. unfold getitem. by rewrite Hst.
  - change (daily_results_loop (g :: (before ++ game :: after)%list) results
            = Raised (key_error "status")).
    cbn [daily_results_loop]. unfold getitem at 1.
    unfold is_Final, field_eq in Hfields. rewrite Hs in *.
    cbn [mbind outcome_mbind outcome_bind].
    destruct (py_eq status (VStr "Final")); [|apply IH].
    destruct (daily_summary_summarises g (Hfields eq_refl)) as (s & -> & _).
    cbn [mbind outcome_mbind outcome_bind]. apply IH.
Qed.

Section Edges.
Context {Payload W : Type} (h : handler Payload W).

Lemma run_bind_Raised {A B} (p : prog Payload A) (f : A → prog Payload B)
    (e : exn) (tr : list (obs Payload)) (w w1 : W) :
  run h p w = Exec (Raised e) tr w1 →
  run h (prog_bind f p) w = Exec (Raised e) tr w1.
Proof. intros Hp. rewrite run_bind, Hp. done. Qed.

Lemma clock_reads_no_schedule (reads : list string) :
  schedule_answers (clock_reads (Payload := Payload) reads) = [].
Proof. by induction reads. Qed.

Lemma run_get_daily_results (date : pyval) (w : W) :
  ∃ date' reads w1,
    defaulted date date' reads ∧
    run h (get_daily_results date) w =
    prepend (clock_reads reads)
      (let '(answer, w2) := h _ (statsapi_schedule None date' date') w1 in
       Exec (schedule ← answer; daily_results_loop schedule [])
            [Obs (statsapi_schedule None date' date') answer] w2).
Proof.
  unfold get_daily_results. monad_binds.
  destruct (run_default_date h date w) as (d & reads & w1 & Hd & Hrun1).
  exists d, reads, w1. split; [done|].
  rewrite (run_bind_Ok _ _ _ _ _ _ _ Hrun1). f_equal.
  rewrite run_bind, run_perform.
  destruct (h _ (statsapi_schedule None d d) w1) as [[schedule|e] w2];
    cbn [fst snd result trace world]; [|done].
  by rewrite run_lift.
Qed.

(** X6. [get_daily_results] asks the schedule provider once, for a single
    day and for all teams: the start and the end of the window are the
    same date, the given one or one reading of the clock.  The result
    is the loop run on the provider's answer; a failure of the provider
    is not caught, it is the outcome of the tool. *)
Theorem get_daily_results_single_query (date : pyval) (w : W) :
  ∃ date' reads answer,
    defaulted date date' reads ∧
    trace (run h (get_daily_results date) w) =
      (clock_reads reads ++
       [Obs (statsapi_schedule None date' date') answer])%list ∧
    result (run h (get_daily_results date) w) =
      (schedule ← answer; daily_results_loop schedule []).
Proof.
  destruct (run_get_daily_results date w) as (d & reads & w1 & Hd & ->).
  destruct (h _ (statsapi_schedule None d d) w1) as [answer w2].
  by exists d, reads, answer.
Qed.

(** X7. No partial result: when a record of the schedule has no ['status'],
    [get_daily_results] raises [KeyError], also when the records before
    it were summarised. *)
Theorem get_daily_results_missing_status
    (date : pyval) (before after : list dict) (game : dict) (w : W) :
  schedule_answers (trace (run h (get_daily_results date) w))
    = [Ok (before ++ game :: after)%list] →
  Forall is_scheduled_game before →
  game !! "status" = None →
  result (run h (get_daily_results date) w) = Raised (key_error "status").
Proof.
  destruct (run_get_daily_results date w) as (d & reads & w1 & _ & ->).
  destruct (h _ (statsapi_schedule None d d) w1) as [answer w2].
  cbn. unfold schedule_answers. rewrite omap_app.
  fold (schedule_answers (clock_reads (Payload := Payload) reads)).
  rewrite clock_reads_no_schedule. cbn. intros [= ->] Hwf Hst.
  cbn. by apply daily_results_loop_missing_status.
Qed.

(** X8. [look_up_team] prints the list the provider answered with, once and
    before indexing it, so also when the list is empty; a failure of the
    provider is raised to the caller and nothing is printed. *)
Theorem look_up_team_prints_or_propagates (team_name : pyval) (w : W) :
  (∀ teams w1,
     h _ (statsapi_lookup_team team_name "Y") w = (Ok teams, w1) →
     printed (trace (run h (look_up_team team_name) w)) = [OutTeams teams]) ∧
  (∀ e w1,
     h _ (statsapi_lookup_team team_name "Y") w = (Raised e, w1) →
     run h (look_up_team team_name) w =
     Exec (Raised e) [Obs (statsapi_lookup_team team_name "Y") (Raised e)] w1).
Proof.
  split; intros ? w1 Hq; rewrite run_look_up_team, Hq; done.
Qed.

(** X9. A team record without ['id'] stops [mlb_team_result] with
    [KeyError] before the schedule is fetched. *)
Theorem mlb_team_result_team_without_id
    (team_name date : pyval) (team : dict) (others : list dict) (w w1 : W) :
  h _ (statsapi_lookup_team team_name "Y") w = (Ok (team :: others), w1) →
  team !! "id" = None →
  result (run h (mlb_team_result team_name date) w) = Raised (key_error "id") ∧
  Forall (λ o, is_schedule_query o = false)
    (trace (run h (mlb_team_result team_name date) w)).
Proof.
  intros Hq Hid.
  assert (Hteam : run h (look_up_team team_name) w =
    Exec (Ok team)
         [Obs (statsapi_lookup_team team_name "Y") (Ok (team :: others));
          Obs (print (OutTeams (team :: others)))
              (h _ (print (OutTeams (team :: others))) w1).1]
         (h _ (print (OutTeams (team :: others))) w1).2).
  { by rewrite run_look_up_team, Hq. }
  unfold mlb_team_result. monad_binds.
  rewrite (run_bind_Ok _ _ _ _ _ _ _ Hteam).
  unfold getitem. rewrite Hid. cbn.
  split; [done|]. by repeat constructor.
Qed.

(** X10. A failure of the schedule fetch is the outcome of
    [mlb_team_result]: it is raised after the team lookup, and neither
    operation of the aggregator is called. *)
Theorem mlb_team_result_schedule_failure
    (team_name date team_id : pyval) (teamInfo : dict) (e : exn)
    (tr1 tr2 : list (obs Payload)) (w w1 w2 : W) :
  run h (look_up_team team_name) w = Exec (Ok teamInfo) tr1 w1 →
  teamInfo !! "id" = Some team_id →
  run h (get_mlb_schedule date date team_id) w1 = Exec (Raised e) tr2 w2 →
  run h (mlb_team_result team_name date) w = Exec (Raised e) (tr1 ++ tr2)%list w2 ∧
  Forall (λ o, is_aggregator_call o = false) (tr1 ++ tr2)%list.
Proof.
  intros Hteam Hid Hsched. split.
  - unfold mlb_team_result. monad_binds.
    rewrite (run_bind_Ok _ _ _ _ _ _ _ Hteam).
    unfold getitem. rewrite Hid. cbn [lift prog_bind].
    by rewrite (run_bind_Raised _ _ _ _ _ _ Hsched).
  - apply Forall_app. split.
    + pose proof (look_up_team_asks h team_name w) as Hasks.
      rewrite Hteam in Hasks. cbn [trace] in Hasks.
      eapply Forall_impl; [exact Hasks|]. by intros o [? _].
    + pose proof (get_mlb_schedule_asks h date date team_id w1) as Hasks.
      by rewrite Hsched in Hasks.
Qed.

Lemma run_mlb_team_result_fetched
    (team_name date team_id : pyval) (teamInfo : dict) (games : list dict)
    (tr1 tr2 : list (obs Payload)) (w w1 w2 : W)
    (k : option dict → prog Payload (option (game_result Payload))) :
  run h (look_up_team team_name) w = Exec (Ok teamInfo) tr1 w1 →
  teamInfo !! "id" = Some team_id →
  run h (get_mlb_schedule date date team_id) w1 = Exec (Ok games) tr2 w2 →
  run h (prog_bind (λ teamInfo,
           prog_bind (λ team_id,
             prog_bind (λ games,
               prog_bind (λ team_id',
                 prog_bind k (lift (find_games_by_team_id games team_id')))
                 (lift (getitem teamInfo "id")))
               (get_mlb_schedule date date team_id))
             (lift (getitem teamInfo "id")))
         (look_up_team team_name)) w =
  prepend tr1 (prepend tr2
    (run h (prog_bind k (lift (find_games_by_team_id games team_id))) w2)).
Proof.
  intros Hteam Hid Hsched. rewrite (run_bind_Ok _ _ _ _ _ _ _ Hteam).
  unfold getitem. rewrite Hid. cbn [lift prog_bind].
  rewrite (run_bind_Ok _ _ _ _ _ _ _ Hsched). by cbn [lift prog_bind].
Qed.

(** X11. A schedule record that the matcher cannot read (a missing
    ['home_id'] or ['away_id']) makes [mlb_team_result] raise the
    matcher's [KeyError]; it is not reported as "no game found". *)
Theorem mlb_team_result_matcher_failure
    (team_name date team_id : pyval) (teamInfo : dict) (games : list dict)
    (e : exn) (tr1 tr2 : list (obs Payload)) (w w1 w2 : W) :
  run h (look_up_team team_name) w = Exec (Ok teamInfo) tr1 w1 →
  teamInfo !! "id" = Some team_id →
  run h (get_mlb_schedule date date team_id) w1 = Exec (Ok games) tr2 w2 →
  find_games_by_team_id games team_id = Raised e →
  run h (mlb_team_result team_name date) w = Exec (Raised e) (tr1 ++ tr2)%list w2.
Proof.
  intros Hteam Hid Hsched Hfind. unfold mlb_team_result. monad_binds.
  rewrite (run_mlb_team_result_fetched _ _ _ _ _ _ _ _ _ _ _ Hteam Hid Hsched).
  rewrite Hfind. cbn. unfold prepend. cbn. by rewrite app_nil_r.
Qed.

(** X12. A matched game without ['game_id'] makes [mlb_team_result] raise
    [KeyError] before either operation of the aggregator is called. *)
Theorem mlb_team_result_game_without_id
    (team_name date team_id : pyval) (teamInfo game : dict) (games : list dict)
    (tr1 tr2 : list (obs Payload)) (w w1 w2 : W) :
  run h (look_up_team team_name) w = Exec (Ok teamInfo) tr1 w1 →
  teamInfo !! "id" = Some team_id →
  run h (get_mlb_schedule date date team_id) w1 = Exec (Ok games) tr2 w2 →
  find_games_by_team_id games team_id = Ok (Some game) →
  game !! "game_id" = None →
  run h (mlb_team_result team_name date) w =
  Exec (Raised (key_error "game_id")) (tr1 ++ tr2)%list w2.
Proof.
  intros Hteam Hid Hsched Hfind Hpk. unfold mlb_team_result. monad_binds.
  rewrite (run_mlb_team_result_fetched _ _ _ _ _ _ _ _ _ _ _ Hteam Hid Hsched).
  rewrite Hfind. cbn [lift prog_bind].
  rewrite (dict_truthy_lookup game "home_id")
    by (by eapply find_games_by_team_id_found).
  unfold getitem. rewrite Hpk. cbn. unfold prepend. cbn. by rewrite app_nil_r.
Qed.

(** X13. The aggregator gives no partial result.  When the scoring plays
    cannot be fetched, the failure is raised and the highlights are not
    requested; when the highlights cannot be fetched, the failure is
    raised and the scoring plays already fetched are dropped. *)
Theorem mlb_team_result_aggregator_failure
    (team_name date team_id gamePk : pyval) (teamInfo game : dict)
    (games : list dict) (e : exn)
    (tr1 tr2 : list (obs Payload)) (w w1 w2 : W) :
  run h (look_up_team team_name) w = Exec (Ok teamInfo) tr1 w1 →
  teamInfo !! "id" = Some team_id →
  run h (get_mlb_schedule date date team_id) w1 = Exec (Ok games) tr2 w2 →
  find_games_by_team_id games team_id = Ok (Some game) →
  game !! "game_id" = Some gamePk →
  (∀ w3,
     h _ (statsapi_game_scoring_plays gamePk) w2 = (Raised e, w3) →
     run h (mlb_team_result team_name date) w =
     Exec (Raised e)
          (tr1 ++ tr2 ++
           [Obs (statsapi_game_scoring_plays gamePk) (Raised e)])%list
          w3) ∧
  (∀ plays w3 w4,
     h _ (statsapi_game_scoring_plays gamePk) w2 = (Ok plays, w3) →
     h _ (statsapi_game_highlights gamePk) w3 = (Raised e, w4) →
     run h (mlb_team_result team_name date) w =
     Exec (Raised e)
          (tr1 ++ tr2 ++
           [Obs (statsapi_game_scoring_plays gamePk) (Ok plays);
            Obs (statsapi_game_highlights gamePk) (Raised e)])%list
          w4).
Proof.
  intros Hteam Hid Hsched Hfind Hpk. unfold mlb_team_result. monad_binds.
  rewrite (run_mlb_team_result_fetched _ _ _ _ _ _ _ _ _ _ _ Hteam Hid Hsched).
  rewrite Hfind. cbn [lift prog_bind].
  rewrite (dict_truthy_lookup game "home_id")
    by (by eapply find_games_by_team_id_found).
  unfold getitem. rewrite Hpk. cbn [lift prog_bind perform run]. split.
  - intros w3 Hplays. by rewrite Hplays.
  - intros plays w3 w4 Hplays Hhl. rewrite Hplays. cbn [lift prog_bind run].
    by rewrite Hhl.
Qed.

(** X14. What is raised by the provider and is not an [Exception] (an
    interrupt, an exit request) passes through the three best-effort
    wrappers: it reaches the caller and no diagnostic is printed. *)
Theorem best_effort_lets_non_exceptions_through (arg : pyval) (e : exn) (w : W) :
  is_Exception e = false →
  ((h _ (statsapi_lookup_player arg) w).1 = Raised e →
   result (run h (get_player_info arg) w) = Raised e ∧
   printed (trace (run h (get_player_info arg) w)) = []) ∧
  ((h _ (statsapi_game_highlights arg) w).1 = Raised e →
   result (run h (get_game_highlights arg) w) = Raised e ∧
   printed (trace (run h (get_game_highlights arg) w)) = []) ∧
  ((h _ (statsapi_game_pace arg) w).1 = Raised e →
   result (run h (game_pace arg) w) = Raised e ∧
   printed (trace (run h (game_pace arg) w)) = []).
Proof.
  intros He. unfold get_player_info, get_game_highlights, game_pace.
  monad_binds. rewrite !run_try_except_perform.
  repeat split;
    match goal with
    | H : (h _ ?ev w).1 = _ |- _ => destruct (h _ ev w) as [answer w1]
    end; cbn [fst snd] in *; subst answer; by rewrite He.
Qed.

End Edges.

(** ** The edge theorems at work in scripted environments *)

Lemma find_games_by_team_id_stops_at_match_witness :
  find_games_by_team_id
    [Demo.game 1 100 200 "Final" None;
     <["home_id" := VInt 119]> ∅;
     Demo.dodgers]
    (VInt 119)
  = Ok (Some (<["home_id" := VInt 119]> ∅)).
Proof.
  apply (find_games_by_team_id_stops_at_match
           [Demo.game 1 100 200 "Final" None] [Demo.dodgers]
           (<["home_id" := VInt 119]> ∅) (VInt 119)).
  - repeat constructor; eexists; vm_compute; reflexivity.
  - repeat constructor.
  - left. vm_compute. reflexivity.
Defined.

Lemma find_games_by_team_id_missing_key_witness :
  find_games_by_team_id [Demo.game 1 100 200 "Final" None; Demo.dodgers] (VInt 119)
  = Raised (key_error "home_id").
Proof.
  apply (proj1 (find_games_by_team_id_missing_key
                  [Demo.game 1 100 200 "Final" None] [] Demo.dodgers (VInt 119)
                  ltac:(repeat constructor; eexists; vm_compute; reflexivity)
                  ltac:(repeat constructor))).
  vm_compute. reflexivity.
Defined.

Lemma find_games_by_team_id_sound_witness :
  find_games_by_team_id Demo.games (VInt 119)
    = Ok (Some (Demo.game 2 300 119 "In Progress" None)) ∧
  plays_in (VInt 119) (Demo.game 2 300 119 "In Progress" None) = true ∧
  dict_truthy (Demo.game 2 300 119 "In Progress" None) = true.
Proof.
  split; [vm_compute; reflexivity|].
  apply (proj1 (find_games_by_team_id_sound Demo.games (VInt 119))
           (Demo.game 2 300 119 "In Progress" None)).
  vm_compute. reflexivity.
Defined.

Lemma daily_summary_keys_witness :
  ∃ summary,
    daily_summary (Demo.game 1 100 200 "Final" (Some "Kershaw")) = Ok summary ∧
    dom summary = summary_keys.
Proof.
  eexists. split; [reflexivity|].
  apply (daily_summary_keys (Demo.game 1 100 200 "Final" (Some "Kershaw"))).
  reflexivity.
Defined.

Lemma daily_summary_missing_field_witness :
  daily_summary (<["game_date" := VStr "2024-07-04"]> Demo.dodgers)
  = Raised (key_error "home_name").
Proof.
  apply (daily_summary_missing_field
           (<["game_date" := VStr "2024-07-04"]> Demo.dodgers)
           ["game_date"]
           ["home_score"; "away_name"; "away_score"; "winning_team";
            "losing_team"]
           "home_name").
  - reflexivity.
  - repeat constructor; eexists; vm_compute; reflexivity.
  - vm_compute. reflexivity.
Defined.

Lemma get_daily_results_missing_status_witness :
  let env := Scripted.env (Ok [])
               (Ok [Demo.game 1 100 200 "Final" None; Demo.dodgers])
               (Ok "") (Ok "") in
  result (run env (get_daily_results VNone) tt) = Raised (key_error "status").
Proof.
  intros env.
  apply (get_daily_results_missing_status env VNone
           [Demo.game 1 100 200 "Final" None] [] Demo.dodgers tt).
  - reflexivity.
  - repeat constructor; eexists; vm_compute; reflexivity.
  - vm_compute. reflexivity.
Defined.

Lemma look_up_team_prints_or_propagates_witness :
  printed (trace (run (Scripted.env (Ok []) (Ok []) (Ok "") (Ok ""))
                      (look_up_team (VStr "Nobody")) tt))
    = [OutTeams []] ∧
  result (run (Scripted.env (Raised Demo.timeout) (Ok []) (Ok "") (Ok ""))
              (look_up_team (VStr "Nobody")) tt)
    = Raised Demo.timeout.
Proof.
  split.
  - exact (proj1 (look_up_team_prints_or_propagates
                    (Scripted.env (Ok []) (Ok []) (Ok "") (Ok ""))
                    (VStr "Nobody") tt) [] tt eq_refl).
  - rewrite (proj2 (look_up_team_prints_or_propagates
                      (Scripted.env (Raised Demo.timeout) (Ok []) (Ok "") (Ok ""))
                      (VStr "Nobody") tt) Demo.timeout tt eq_refl).
    reflexivity.
Defined.

Lemma mlb_team_result_team_without_id_witness :
  let team : dict := <["name" := VStr "Los Angeles Dodgers"]> ∅ in
  let env := Scripted.env (Ok [team]) (Ok Demo.games) (Ok "") (Ok "") in
  result (run env (mlb_team_result (VStr "Dodgers") VNone) tt)
    = Raised (key_error "id").
Proof.
  intros team env.
  apply (mlb_team_result_team_without_id env (VStr "Dodgers") VNone team [] tt tt).
  - reflexivity.
  - vm_compute. reflexivity.
Defined.

Lemma mlb_team_result_schedule_failure_witness :
  let env := Scripted.env (Ok [Demo.dodgers]) (Raised Demo.timeout)
               (Ok "") (Ok "") in
  result (run env (mlb_team_result (VStr "Dodgers") VNone) tt)
    = Raised Demo.timeout.
Proof.
  intros env.
  rewrite (proj1 (mlb_team_result_schedule_failure env
                    (VStr "Dodgers") VNone (VInt 119) Demo.dodgers Demo.timeout
                    _ _ tt tt tt eq_refl eq_refl eq_refl)).
  reflexivity.
Defined.

Lemma mlb_team_result_matcher_failure_witness :
  let env := Scripted.env (Ok [Demo.dodgers]) (Ok [Demo.dodgers])
               (Ok "") (Ok "") in
  result (run env (mlb_team_result (VStr "Dodgers") VNone) tt)
    = Raised (key_error "home_id").
Proof.
  intros env.
  rewrite (mlb_team_result_matcher_failure env
             (VStr "Dodgers") VNone (VInt 119) Demo.dodgers [Demo.dodgers]
             (key_error "home_id") _ _ tt tt tt
             eq_refl eq_refl eq_refl eq_refl).
  reflexivity.
Defined.

Lemma mlb_team_result_game_without_id_witness :
  let game : dict := <["home_id" := VInt 119]> (<["away_id" := VInt 7]> ∅) in
  let env := Scripted.env (Ok [Demo.dodgers]) (Ok [game]) (Ok "") (Ok "") in
  result (run env (mlb_team_result (VStr "Dodgers") VNone) tt)
    = Raised (key_error "game_id").
Proof.
  intros game env.
  rewrite (mlb_team_result_game_without_id env
             (VStr "Dodgers") VNone (VInt 119) Demo.dodgers game [game]
             _ _ tt tt tt eq_refl eq_refl eq_refl eq_refl eq_refl).
  reflexivity.
Defined.

Lemma mlb_team_result_aggregator_failure_witness :
  let env := Scripted.env (Ok [Demo.dodgers]) (Ok Demo.games)
               (Raised Demo.timeout) (Ok "highlights") in
  result (run env (mlb_team_result (VStr "Dodgers") VNone) tt)
    = Raised Demo.timeout ∧
  Forall (λ o, match o with
               | Obs (statsapi_game_highlights _) _ => False
               | Obs _ _ => True
               end)
    (trace (run env (mlb_team_result (VStr "Dodgers") VNone) tt)).
Proof.
  intros env.
  rewrite (proj1 (mlb_team_result_aggregator_failure env
                    (VStr "Dodgers") VNone (VInt 119) (VInt 2) Demo.dodgers
                    (Demo.game 2 300 119 "In Progress" None) Demo.games
                    Demo.timeout _ _ tt tt tt
                    eq_refl eq_refl eq_refl eq_refl eq_refl) tt eq_refl).
  split; [reflexivity|]. cbn. repeat constructor.
Defined.

Lemma best_effort_lets_non_exceptions_through_witness :
  let env := Scripted.env (Ok []) (Ok []) (Ok "")
               (Raised Scripted.interrupt) in
  result (run env (get_game_highlights (VInt 2)) tt) = Raised Scripted.interrupt.
Proof.
  intros env.
  destruct (best_effort_lets_non_exceptions_through env (VInt 2)
              Scripted.interrupt tt eq_refl) as (_ & Hhighlights & _).
  exact (proj1 (Hhighlights eq_refl)).
Defined.

